(** * Shallow embedding of the ExpenseTracker server (src/main.py)

    The server is a thin layer over one SQLite table [expenses].  The Python
    functions [init_db], [add_expense], [list_expenses] and [summarize] are
    embedded here together with the part of SQLite's semantics their SQL text
    relies on: [CREATE TABLE IF NOT EXISTS], [INTEGER PRIMARY KEY
    AUTOINCREMENT], [BETWEEN] on TEXT under the BINARY collation (byte-wise
    comparison), [GROUP BY], [SUM], [COUNT( * )] and [ORDER BY ... DESC].

    Effects are modelled as the code has them: each call opens a connection
    (a working copy of the committed database file), runs its statements,
    possibly commits, and closes the connection; closing discards whatever
    was not committed.  Every storage primitive (connect, execute, fetchall,
    commit) consults a fault oracle, a list of booleans, so that a failing
    disk, lock timeout or corrupt file can happen at any step; a fault raises
    [StorageError].

    Modelling choices:
    - Python [str] values are handled as their UTF-8 byte strings, i.e. as
      [String.string] (a list of bytes); SQLite's BINARY collation is
      [String.compare], a memcmp-like lexicographic order.
    - The REAL column [amount] holds IEEE-754 binary64 values (a Python
      [float]), modelled by the Standard Library's [spec_float] with
      precision 53 and maximal exponent 1024: zeros, infinities, NaN and
      finite values, with correctly rounded addition.  [sqlite3] binds a NaN
      as SQL NULL, so the [NOT NULL] constraint of [amount] rejects it.
    - [SUM(amount)] over REAL values adds the group's values one after the
      other to 0.0 in double precision, as SQLite's [sumStep] does
      (releases before 3.43, whose [SUM] uses no compensated summation); a
      NaN result is returned as NULL.  SQLite does not document the order in
      which an aggregate visits rows; the model visits them in rowid
      (scan) order, which is what a full-table scan does.
    - [ORDER BY] is realised by a stable insertion sort on the scan order;
      SQLite leaves the order of ties unspecified, and no statement below
      depends on that order. *)

From Stdlib Require Import List String ZArith Lia Bool.
From Stdlib Require Import Sorting.Sorted Sorting.Permutation.
From Stdlib Require Import Floats.SpecFloat.
Import ListNotations.

Open Scope Z_scope.

(** ** Data model *)

(** IEEE-754 binary64, the values of a Python [float] and of an SQLite
    REAL. *)
Definition float := spec_float.
Definition prec64 : Z := 53.
Definition emax64 : Z := 1024.

(** Correctly rounded addition (round to nearest, ties to even). *)
Definition fadd (x y : float) : float := SFadd prec64 emax64 x y.

(** [x < y] on doubles; false when either is NaN. *)
Definition fltb (x y : float) : bool := SFltb x y.

Definition fzero : float := S754_zero false.

Definition is_nan (x : float) : bool :=
  match x with
  | S754_nan => true
  | _ => false
  end.

(** The double nearest to m * 2^e; [of_Z z] is Python's [float(z)]. *)
Definition dyadic (m e : Z) : float := binary_normalize prec64 emax64 m e false.
Definition of_Z (z : Z) : float := dyadic z 0.

(** A row of [expenses]; [subcategory] and [note] are the nullable columns
    ([None] is SQL NULL, Python [None]). *)
Record expense := mkExpense {
  id : Z;
  date : string;
  amount : float;
  category : string;
  subcategory : option string;
  note : option string
}.

(** A column declaration of a [CREATE TABLE] statement: name, declared type
    and constraints. *)
Record column_def := mkColumn {
  col_name : string;
  col_type : string;
  col_constraint : string
}.

(** The [expenses] table as stored: its declared shape, its rows in rowid
    order, and the [sqlite_sequence] entry kept for AUTOINCREMENT (0 when
    the table never had a row). *)
Record table := mkTable {
  t_columns : list column_def;
  t_rows : list expense;
  t_seq : Z
}.

(** The database file: [None] when the [expenses] table does not exist. *)
Definition file := option table.

(** The column list of the [CREATE TABLE] statement of [init_db]. *)
Definition expenses_columns : list column_def := [
  mkColumn "id" "INTEGER" "PRIMARY KEY AUTOINCREMENT";
  mkColumn "date" "TEXT" "NOT NULL";
  mkColumn "amount" "REAL" "NOT NULL";
  mkColumn "category" "TEXT" "NOT NULL";
  mkColumn "subcategory" "TEXT" EmptyString;
  mkColumn "note" "TEXT" EmptyString
]%string.

(** The largest rowid SQLite accepts, 2^63 - 1. *)
Definition max_rowid_value : Z := 9223372036854775807.

(** ** Errors, connection state and the storage monad *)

Inductive error :=
| StorageError (msg : string).

Inductive result (A : Type) :=
| Ok (a : A)
| Err (e : error).
Arguments Ok {A} a.
Arguments Err {A} e.

(** [disk] is the committed database file, [work] the view of the open
    connection (committed state plus its uncommitted changes), [oracle] the
    outcome of the next storage primitives ([false] = that primitive fails;
    an exhausted oracle means the storage keeps working). *)
Record conn_state := mkConn {
  disk : file;
  work : file;
  oracle : list bool
}.

Definition M (A : Type) := conn_state -> conn_state * result A.

Definition ret {A} (a : A) : M A := fun st => (st, Ok a).

Definition bind {A B} (m : M A) (k : A -> M B) : M B :=
  fun st =>
    match m st with
    | (st', Ok a) => k a st'
    | (st', Err e) => (st', Err e)
    end.

Notation "x <- m ;; k" := (bind m (fun x => k))
  (at level 61, m at next level, right associativity).
Notation "m ;;; k" := (bind m (fun _ => k))
  (at level 61, right associativity).

Definition io_error : error := StorageError "disk I/O error".

(** Consult the oracle for one storage primitive. *)
Definition storage_ok (st : conn_state) : bool * list bool :=
  match oracle st with
  | [] => (true, [])
  | b :: rest => (b, rest)
  end.

(** One storage primitive acting on the connection's view: it fails when
    the oracle says so, or with the error SQLite reports for the statement;
    a failing statement leaves the view unchanged. *)
Definition storage_call {A} (f : file -> result (file * A)) : M A :=
  fun st =>
    let (ok, rest) := storage_ok st in
    let st1 := mkConn (disk st) (work st) rest in
    if ok then
      match f (work st) with
      | Ok (w', a) => (mkConn (disk st) w' rest, Ok a)
      | Err e => (st1, Err e)
      end
    else (st1, Err io_error).

(** [connect]: open the database file; the view is the committed state. *)
Definition connect : M unit :=
  fun st =>
    let (ok, rest) := storage_ok st in
    if ok then (mkConn (disk st) (disk st) rest, Ok tt)
    else (mkConn (disk st) (work st) rest, Err io_error).

(** [commit]: make the connection's view the committed state. *)
Definition commit : M unit :=
  fun st =>
    let (ok, rest) := storage_ok st in
    if ok then (mkConn (work st) (work st) rest, Ok tt)
    else (mkConn (disk st) (work st) rest, Err io_error).

(** Closing a connection rolls back what it did not commit. *)
Definition close (st : conn_state) : conn_state :=
  mkConn (disk st) (disk st) (oracle st).

(** [async with aiosqlite.connect(DB_PATH) as db: body]: the connection is
    closed on every exit path, and an exception of [body] propagates. *)
Definition with_connection {A} (body : M A) : M A :=
  fun st =>
    match connect st with
    | (st1, Ok _) =>
        let (st2, r) := body st1 in (close st2, r)
    | (st1, Err e) => (st1, Err e)
    end.

(** Run an operation against a committed file and an oracle, returning the
    committed file afterwards and the outcome. *)
Definition run {A} (m : M A) (f : file) (orc : list bool) : file * result A :=
  let (st, r) := m (mkConn f f orc) in (disk st, r).

(** ** SQL primitives used by the statements of main.py *)

(** BINARY collation on TEXT: byte-wise comparison. *)
Definition text_le (a b : string) : bool := String.leb a b.

(** [x BETWEEN lo AND hi] is [lo <= x AND x <= hi]. *)
Definition between (lo hi x : string) : bool := text_le lo x && text_le x hi.

(** Stable insertion sort, used for [ORDER BY k DESC]: [ge a b] tells that
    [a] may come before [b]; a new element goes after every element that is
    [ge] it, so equal keys keep the scan order. *)
Section OrderBy.
Context {A : Type} (ge : A -> A -> bool).

Fixpoint insert_by (x : A) (l : list A) : list A :=
  match l with
  | [] => [x]
  | y :: l' => if ge y x then y :: insert_by x l' else x :: l
  end.

Fixpoint sort_into (acc l : list A) : list A :=
  match l with
  | [] => acc
  | x :: l' => sort_into (insert_by x acc) l'
  end.

Definition order_by (l : list A) : list A := sort_into [] l.
End OrderBy.

(** The predicates of the [WHERE] clauses built by main.py, with [?]
    placeholders, and the same predicates once the parameters are bound. *)
Inductive pred :=
| DateBetween            (* date BETWEEN ? AND ? *)
| CategoryEq.            (* category = ? *)

Inductive bound_pred :=
| BDateBetween (lo hi : string)
| BCategoryEq (c : string).

(** Binding the parameter list to the placeholders, in order; a count
    mismatch is the error sqlite3 raises ("Incorrect number of bindings"). *)
Fixpoint bind_params (ps : list pred) (params : list string)
  : result (list bound_pred) :=
  match ps, params with
  | [], [] => Ok []
  | DateBetween :: ps', lo :: hi :: rest =>
      match bind_params ps' rest with
      | Ok bs => Ok (BDateBetween lo hi :: bs)
      | Err e => Err e
      end
  | CategoryEq :: ps', c :: rest =>
      match bind_params ps' rest with
      | Ok bs => Ok (BCategoryEq c :: bs)
      | Err e => Err e
      end
  | _, _ => Err (StorageError "Incorrect number of bindings supplied")
  end.

Definition eval_pred (b : bound_pred) (r : expense) : bool :=
  match b with
  | BDateBetween lo hi => between lo hi (date r)
  | BCategoryEq c => String.eqb (category r) c
  end.

(** The [WHERE] clause is the conjunction of its predicates. *)
Definition eval_where (bs : list bound_pred) (r : expense) : bool :=
  forallb (fun b => eval_pred b r) bs.

Definition no_such_table : error := StorageError "no such table: expenses".

(** *** CREATE TABLE IF NOT EXISTS expenses (...) *)
Definition create_table_if_not_exists (cols : list column_def) (f : file)
  : result (file * unit) :=
  match f with
  | Some t => Ok (Some t, tt)
  | None => Ok (Some (mkTable cols [] 0), tt)
  end.

(** *** INSERT INTO expenses(date, amount, category, subcategory, note)
        VALUES (?, ?, ?, ?, ?)

    With [AUTOINCREMENT] the new rowid is one more than the larger of the
    largest rowid in the table and the [sqlite_sequence] entry; when that
    exceeds 2^63 - 1 SQLite fails with SQLITE_FULL.  The [amount] parameter
    bound to NaN is NULL, which the [NOT NULL] constraint rejects; SQLite
    checks it once the rowid is allocated.  The statement returns the new
    rowid ([cursor.lastrowid]). *)
Definition max_rowid (rows : list expense) : Z :=
  fold_right (fun r m => Z.max (id r) m) 0 rows.

Definition next_rowid (t : table) : Z := Z.max (t_seq t) (max_rowid (t_rows t)) + 1.

Definition sql_insert (d : string) (a : float) (c : string) (sc n : option string)
  (f : file) : result (file * Z) :=
  match f with
  | None => Err no_such_table
  | Some t =>
      let new := next_rowid t in
      if new >? max_rowid_value then Err (StorageError "database or disk is full")
      else if is_nan a then Err (StorageError "NOT NULL constraint failed: expenses.amount")
      else Ok (Some (mkTable (t_columns t)
                             (t_rows t ++ [mkExpense new d a c sc n]) new), new)
  end.

(** *** SELECT id, date, amount, category, subcategory, note FROM expenses
        WHERE ... ORDER BY date DESC *)
Definition date_ge (a b : expense) : bool := text_le (date b) (date a).

Definition sql_select_expenses (ps : list pred) (params : list string) (f : file)
  : result (file * list expense) :=
  match f with
  | None => Err no_such_table
  | Some t =>
      match bind_params ps params with
      | Err e => Err e
      | Ok bs => Ok (f, order_by date_ge (filter (eval_where bs) (t_rows t)))
      end
  end.

(** *** SELECT category, SUM(amount) AS total_amount, COUNT( * ) AS count
        FROM expenses WHERE ... GROUP BY category ORDER BY total_amount DESC *)

(** A row of the result; [total_amount] is [None] when SUM yields NULL. *)
Record summary := mkSummary {
  s_category : string;
  total_amount : option float;
  count : Z
}.

(** The aggregate state of one group: the running double sum of [SUM]
    and the row count of [COUNT( * )]. *)
Record group_acc := mkAcc {
  g_category : string;
  g_sum : float;
  g_count : Z
}.

(** [GROUP BY category]: one accumulator per category, in order of first
    appearance in the scan; a new group's sum starts at 0.0. *)
Fixpoint group_add (g : list group_acc) (r : expense) : list group_acc :=
  match g with
  | [] => [mkAcc (category r) (fadd fzero (amount r)) 1]
  | s :: g' =>
      if String.eqb (g_category s) (category r)
      then mkAcc (g_category s) (fadd (g_sum s) (amount r)) (g_count s + 1) :: g'
      else s :: group_add g' r
  end.

Definition group_by_category (rows : list expense) : list group_acc :=
  fold_left group_add rows [].

(** A double returned as a result value: SQLite stores a NaN as NULL. *)
Definition sql_real (x : float) : option float :=
  if is_nan x then None else Some x.

(** The output row of a group. *)
Definition finalize (a : group_acc) : summary :=
  mkSummary (g_category a) (sql_real (g_sum a)) (g_count a).

(** SQL comparison [x < y] of two values of the column: NULL is below every
    number, numbers compare as doubles. *)
Definition sql_lt (x y : option float) : bool :=
  match x, y with
  | None, Some _ => true
  | Some x', Some y' => fltb x' y'
  | _, _ => false
  end.

(** [ORDER BY total_amount DESC]: [a] may come before [b] unless
    [a.total_amount < b.total_amount]. *)
Definition total_ge (a b : summary) : bool :=
  negb (sql_lt (total_amount a) (total_amount b)).

Definition sql_select_summary (ps : list pred) (params : list string) (f : file)
  : result (file * list summary) :=
  match f with
  | None => Err no_such_table
  | Some t =>
      match bind_params ps params with
      | Err e => Err e
      | Ok bs =>
          Ok (f, order_by total_ge
                   (map finalize (group_by_category (filter (eval_where bs) (t_rows t)))))
      end
  end.

(** [cur.fetchall()]: a storage primitive returning the whole result set. *)
Definition fetchall {A} (rows : list A) : M (list A) :=
  storage_call (fun w => Ok (w, rows)).

(** A DDL statement runs outside any transaction (Python's sqlite3 opens no
    implicit transaction before [CREATE]): its effect is committed at once. *)
Definition execute_autocommit {A} (f : file -> result (file * A)) : M A :=
  fun st =>
    let (ok, rest) := storage_ok st in
    if ok then
      match f (work st) with
      | Ok (w', a) => (mkConn w' w' rest, Ok a)
      | Err e => (mkConn (disk st) (work st) rest, Err e)
      end
    else (mkConn (disk st) (work st) rest, Err io_error).

(** [conn.commit()] with no open transaction does nothing. *)
Definition commit_no_txn : M unit := ret tt.

(** ** The functions of main.py *)

(** [init_db]:
<<
    with sqlite3.connect(DB_PATH) as conn:
        conn.execute("CREATE TABLE IF NOT EXISTS expenses (...)")
        conn.commit()
>> *)
Definition init_db : M unit :=
  with_connection
    (execute_autocommit (create_table_if_not_exists expenses_columns) ;;;
     commit_no_txn).

(** The dictionary [{"status": "success", "id": cur.lastrowid}]. *)
Record add_result := mkAddResult {
  add_status : string;
  add_id : Z
}.

(** [add_expense(date, amount, category, subcategory=None, note=None)] *)
Definition add_expense (d : string) (a : float) (c : string)
  (subcategory note : option string) : M add_result :=
  lastrowid <- with_connection
                 (rid <- storage_call (sql_insert d a c subcategory note) ;;
                  commit ;;;
                  ret rid) ;;
  ret (mkAddResult "success" lastrowid).

(** [list_expenses(start_date, end_date)] *)
Definition list_expenses (start_date end_date : string) : M (list expense) :=
  with_connection
    (rows <- storage_call (sql_select_expenses [DateBetween] [start_date; end_date]) ;;
     fetchall rows).

(** Python truthiness of an [Optional[str]]: [None] and the empty string
    are false. *)
Definition py_truthy (o : option string) : bool :=
  match o with
  | None => false
  | Some s => negb (String.eqb s EmptyString)
  end.

(** The query builder of [summarize]:
<<
    params = [start_date, end_date]
    if category:
        query += " AND category = ?"
        params.append(category)
>> *)
Definition summary_query (start_date end_date : string) (cat : option string)
  : list pred * list string :=
  let ps := [DateBetween] in
  let params := [start_date; end_date] in
  match cat with
  | Some c => if py_truthy cat then (ps ++ [CategoryEq], params ++ [c]) else (ps, params)
  | None => (ps, params)
  end.

(** [summarize(start_date, end_date, category=None)] *)
Definition summarize (start_date end_date : string) (cat : option string)
  : M (list summary) :=
  let (ps, params) := summary_query start_date end_date cat in
  with_connection
    (rows <- storage_call (sql_select_summary ps params) ;;
     fetchall rows).

(** ** Tool invocations, as the dispatcher issues them one after another *)

Inductive op :=
| OpInit
| OpAdd (d : string) (a : float) (c : string) (sc n : option string)
| OpList (s e : string)
| OpSummarize (s e : string) (c : option string).

Inductive outcome :=
| OutUnit (r : result unit)
| OutAdd (r : result add_result)
| OutList (r : result (list expense))
| OutSummary (r : result (list summary)).

Definition run_op (o : op) (f : file) (orc : list bool) : file * outcome :=
  match o with
  | OpInit => let (f', r) := run init_db f orc in (f', OutUnit r)
  | OpAdd d a c sc n => let (f', r) := run (add_expense d a c sc n) f orc in (f', OutAdd r)
  | OpList s e => let (f', r) := run (list_expenses s e) f orc in (f', OutList r)
  | OpSummarize s e c => let (f', r) := run (summarize s e c) f orc in (f', OutSummary r)
  end.

(** A sequence of calls, each with the storage faults it meets. *)
Fixpoint run_ops (os : list (op * list bool)) (f : file) : file * list outcome :=
  match os with
  | [] => (f, [])
  | (o, orc) :: rest =>
      let (f1, out1) := run_op o f orc in
      let (f2, outs) := run_ops rest f1 in (f2, out1 :: outs)
  end.

(** The identifiers returned by the successful inserts of a run, in order. *)
Fixpoint added_ids (outs : list outcome) : list Z :=
  match outs with
  | [] => []
  | OutAdd (Ok r) :: rest => add_id r :: added_ids rest
  | _ :: rest => added_ids rest
  end.

Definition rows_of (f : file) : list expense :=
  match f with
  | Some t => t_rows t
  | None => []
  end.

(** ** Definitions used in the statements *)

(** The complete result set of the [list_expenses] query on a table. *)
Definition list_result (s e : string) (t : table) : list expense :=
  order_by date_ge (filter (fun r => between s e (date r)) (t_rows t)).

(** The complete result set of the summary query with bound predicates [bs]. *)
Definition summary_result (bs : list bound_pred) (t : table) : list summary :=
  order_by total_ge (map finalize (group_by_category (filter (eval_where bs) (t_rows t)))).

(** The table after a successful [INSERT]. *)
Definition inserted (t : table) d a c sc n : table :=
  mkTable (t_columns t) (t_rows t ++ [mkExpense (next_rowid t) d a c sc n]) (next_rowid t).

(** The file after a successful [init_db]. *)
Definition init_file (f : file) : file :=
  match f with
  | Some t => Some t
  | None => Some (mkTable expenses_columns [] 0)
  end.

(** The bound [WHERE] predicates of the query built by [summarize]. *)
Definition summary_bs (s e : string) (c : option string) : list bound_pred :=
  match c with
  | Some c' => if py_truthy c then [BDateBetween s e; BCategoryEq c'] else [BDateBetween s e]
  | None => [BDateBetween s e]
  end.

(** The double sum of the amounts of a list of rows, added in list order
    to 0.0. *)
Definition fsum (l : list expense) : float :=
  fold_left (fun acc r => fadd acc (amount r)) l fzero.

(** The rows of category [c]. *)
Definition cat_rows (c : string) (l : list expense) : list expense :=
  filter (fun r => String.eqb (category r) c) l.

(** Invariant of the [GROUP BY] accumulator after scanning the rows [done]:
    one entry per category met, holding the double sum, in scan order, and
    the count of its rows. *)
Definition group_inv (g : list group_acc) (done : list expense) : Prop :=
  NoDup (map g_category g) /\
  (forall c, In c (map g_category g) <-> exists r, In r done /\ category r = c) /\
  (forall x, In x g ->
     g_sum x = fsum (cat_rows (g_category x) done) /\
     g_count x = Z.of_nat (List.length (cat_rows (g_category x) done))).

(** The same facts for the output rows of a summary of the rows [ms]. *)
Definition summary_inv (out : list summary) (ms : list expense) : Prop :=
  NoDup (map s_category out) /\
  (forall c, In c (map s_category out) <-> exists r, In r ms /\ category r = c) /\
  (forall x, In x out ->
     total_amount x = sql_real (fsum (cat_rows (s_category x) ms)) /\
     count x = Z.of_nat (List.length (cat_rows (s_category x) ms))).

(** [init_db] called [n] times in a row on working storage. *)
Fixpoint init_n (n : nat) (f : file) : file :=
  match n with
  | O => f
  | S n' => fst (run init_db (init_n n' f) [])
  end.

(** The largest identifier ever used: AUTOINCREMENT allocates above it. *)
Definition hi (f : file) : Z :=
  match f with
  | Some t => Z.max (t_seq t) (max_rowid (t_rows t))
  | None => 0
  end.

(** The identifier returned by one call, if it is a successful insert. *)
Definition out_ids (o : outcome) : list Z :=
  match o with
  | OutAdd (Ok r) => [add_id r]
  | _ => []
  end.

(** ** Sample databases *)

(** A freshly initialised database. *)
Definition db0 : file := fst (run init_db None []).

(** The data of the spec's examples: three expenses in January/February. *)
Definition sample_file : file :=
  fst (run (add_expense "2024-02-01" (of_Z 500) "Travel" None None)
    (fst (run (add_expense "2024-01-01" (of_Z 1000) "Food" None None)
      (fst (run (add_expense "2024-01-15" (of_Z 4250) "Food" None None) db0 [])) [])) []).

(** Two expenses, one of them with the empty category. *)
Definition c3_file : file :=
  fst (run (add_expense "2024-01-11" (of_Z 1000) "Food" None None)
         (fst (run (add_expense "2024-01-10" (of_Z 500) EmptyString None None) db0 [])) []).

(** Three Food expenses of 1e16, 1.0 and 1.0. *)
Definition c2_file : file :=
  fst (run (add_expense "2024-01-03" (of_Z 1) "Food" None None)
    (fst (run (add_expense "2024-01-02" (of_Z 1) "Food" None None)
      (fst (run (add_expense "2024-01-01" (of_Z 10000000000000000) "Food" None None)
         db0 [])) [])) []).

(** [denotes_int x z]: the double [x] has exactly the integer value [z]. *)
Definition denotes_int (x : float) (z : Z) : bool :=
  match x with
  | S754_zero _ => Z.eqb z 0
  | S754_finite s m e =>
      let v := if s then Z.neg m else Z.pos m in
      if 0 <=? e then Z.eqb (v * 2 ^ e) z else Z.eqb v (z * 2 ^ (- e))
  | _ => false
  end.

(** A sequence of calls: initialise, insert, a failing insert, insert. *)
Definition sample_calls : list (op * list bool) := [
  (OpInit, []);
  (OpAdd "2024-01-15" (of_Z 4250) "Food" None None, []);
  (OpAdd "2024-01-16" (of_Z 700) "Bills" None None, [true; false]);
  (OpList "2024-01-01" "2024-01-31", []);
  (OpAdd "2024-01-17" (of_Z 300) "Food" (Some "Lunch") None, [])
]%string.

(** Grand total of the [count] column of a summary. *)
Definition sum_counts (l : list summary) : Z :=
  fold_right (fun x z => count x + z) 0 l.

(** * Proofs *)

Example spec_example_run :
  snd (run (list_expenses "2024-01-01" "2024-01-31") sample_file [])
  = Ok [mkExpense 1 "2024-01-15" (of_Z 4250) "Food" None None;
        mkExpense 2 "2024-01-01" (of_Z 1000) "Food" None None]
  /\ snd (run (summarize "2024-01-01" "2024-02-28" None) sample_file [])
  = Ok [mkSummary "Food" (Some (of_Z 5250)) 2; mkSummary "Travel" (Some (of_Z 500)) 1]
  /\ snd (run (summarize "2024-01-01" "2024-02-28" (Some "Travel"%string)) sample_file [])
  = Ok [mkSummary "Travel" (Some (of_Z 500)) 1].
Proof. vm_compute. repeat split; reflexivity. Qed.

(** Double arithmetic as SQLite performs it: 0.1 + 0.2 is
    0.30000000000000004; a group with amounts +inf and -inf sums to NaN and
    is reported with a NULL total, which [ORDER BY ... DESC] puts last; a
    NaN amount is refused by the [NOT NULL] constraint. *)
Example double_semantics :
  fadd (dyadic 3602879701896397 (-55)) (dyadic 3602879701896397 (-54)) =
    dyadic 5404319552844596 (-54) /\
  dyadic 5404319552844596 (-54) <> dyadic 5404319552844595 (-54) /\
  snd (run (summarize "2024-01-01" "2024-01-31" None)
         (fst (run (add_expense "2024-01-03" (of_Z 1) "Y" None None)
           (fst (run (add_expense "2024-01-02" (S754_infinity true) "X" None None)
             (fst (run (add_expense "2024-01-01" (S754_infinity false) "X" None None)
                db0 [])) [])) [])) []) =
    Ok [mkSummary "Y" (Some (of_Z 1)) 1; mkSummary "X" None 2] /\
  run (add_expense "2024-01-01" S754_nan "Food" None None) db0 [] =
    (db0, Err (StorageError "NOT NULL constraint failed: expenses.amount")).
Proof. repeat split; try (vm_compute; reflexivity). vm_compute. discriminate. Qed.

Example sample_calls_run :
  added_ids (snd (run_ops sample_calls None)) = [1; 2].
Proof. vm_compute. reflexivity. Qed.

Section OrderByFacts.
Context {A : Type} (ge : A -> A -> bool).

Lemma insert_by_perm x l : Permutation (insert_by ge x l) (x :: l).
Proof.
  induction l as [|y l IH]; simpl; [reflexivity|].
  destruct (ge y x); [|reflexivity].
  rewrite IH. apply perm_swap.
Qed.

Lemma sort_into_perm acc l : Permutation (sort_into ge acc l) (acc ++ l).
Proof.
  revert acc; induction l as [|x l IH]; intros acc; simpl.
  - now rewrite app_nil_r.
  - rewrite IH, insert_by_perm. simpl. apply Permutation_middle.
Qed.

Lemma order_by_perm l : Permutation (order_by ge l) l.
Proof. apply sort_into_perm. Qed.

Hypothesis ge_total : forall a b, ge a b = false -> ge b a = true.

Lemma insert_by_hd y x l :
  HdRel (fun a b => ge a b = true) y l -> ge y x = true -> HdRel (fun a b => ge a b = true) y (insert_by ge x l).
Proof.
  destruct l as [|z l]; simpl; intros Hd Hyx.
  - now constructor.
  - destruct (ge z x); [inversion Hd; now constructor | now constructor].
Qed.

Lemma insert_by_sorted x l : Sorted (fun a b => ge a b = true) l -> Sorted (fun a b => ge a b = true) (insert_by ge x l).
Proof.
  induction l as [|y l IH]; simpl; intros Hs.
  - repeat constructor.
  - inversion Hs as [|? ? Hl Hd]; subst.
    destruct (ge y x) eqn:Hyx.
    + constructor; [now apply IH|]. now apply insert_by_hd.
    + constructor; [assumption|]. constructor. now apply ge_total.
Qed.

Lemma sort_into_sorted acc l : Sorted (fun a b => ge a b = true) acc -> Sorted (fun a b => ge a b = true) (sort_into ge acc l).
Proof.
  revert acc; induction l as [|x l IH]; intros acc Hs; simpl; [assumption|].
  apply IH, insert_by_sorted, Hs.
Qed.

Lemma order_by_sorted l : Sorted (fun a b => ge a b = true) (order_by ge l).
Proof. apply sort_into_sorted. constructor. Qed.
End OrderByFacts.

Lemma text_le_total a b : text_le a b = false -> text_le b a = true.
Proof. unfold text_le. intros H. destruct (String.leb_total a b); congruence. Qed.

Lemma date_ge_total a b : date_ge a b = false -> date_ge b a = true.
Proof. unfold date_ge. apply text_le_total. Qed.

(** Swapping the operands of a double comparison reverses its outcome. *)
Lemma SFcompare_swap x y : SFcompare y x = option_map CompOpp (SFcompare x y).
Proof.
  destruct x as [sx|sx| |sx mx ex], y as [sy|sy| |sy my ey]; simpl; try reflexivity;
    try (destruct sx); try (destruct sy); simpl; try reflexivity.
  all: destruct (Z.compare_spec ex ey) as [<-|Hl|Hl];
    [rewrite Z.compare_refl | rewrite (proj2 (Z.compare_gt_iff ey ex) Hl)
    | rewrite (proj2 (Z.compare_lt_iff ey ex) Hl)]; try reflexivity.
  all: pose proof (Pos.compare_cont_antisym mx my Eq) as H; simpl in H.
  all: rewrite <- H; try reflexivity.
  all: destruct (Pos.compare_cont Eq mx my); reflexivity.
Qed.

Lemma fltb_asym x y : fltb x y = true -> fltb y x = false.
Proof.
  unfold fltb, SFltb. rewrite (SFcompare_swap x y).
  destruct (SFcompare x y) as [[]|]; simpl; intro H; first [reflexivity | discriminate].
Qed.

Lemma sql_lt_asym x y : sql_lt x y = true -> sql_lt y x = false.
Proof.
  destruct x as [x|], y as [y|]; simpl; try discriminate; try reflexivity.
  apply fltb_asym.
Qed.

Lemma total_ge_total a b : total_ge a b = false -> total_ge b a = true.
Proof.
  unfold total_ge. rewrite negb_false_iff. intros H.
  now rewrite (sql_lt_asym _ _ H).
Qed.

Ltac run_cases orc :=
  destruct orc as [|[] [|[] [|[] [|[] ?]]]].

Lemma eval_where_between s e r : eval_where [BDateBetween s e] r = between s e (date r).
Proof. unfold eval_where; simpl. now rewrite andb_true_r. Qed.

Lemma run_list_expenses s e f orc :
  fst (run (list_expenses s e) f orc) = f /\
  forall out, snd (run (list_expenses s e) f orc) = Ok out ->
    exists t, f = Some t /\ out = list_result s e t.
Proof.
  unfold run, list_expenses, with_connection, connect, bind, fetchall,
    storage_call, storage_ok, close, sql_select_expenses; simpl.
  run_cases orc; destruct f as [t|]; simpl;
    split; intros; try discriminate; try reflexivity.
  all: injection H as <-; exists t; split; [reflexivity|].
  all: unfold list_result; f_equal; apply filter_ext; apply eval_where_between.
Qed.

Lemma run_list_expenses_ok s e t :
  run (list_expenses s e) (Some t) [] = (Some t, Ok (list_result s e t)).
Proof.
  unfold run, list_expenses, with_connection, connect, bind, fetchall,
    storage_call, storage_ok, close, sql_select_expenses; simpl.
  unfold list_result. do 3 f_equal. apply filter_ext. apply eval_where_between.
Qed.

Lemma run_summarize s e c f orc :
  fst (run (summarize s e c) f orc) = f /\
  forall out, snd (run (summarize s e c) f orc) = Ok out ->
    exists t bs, f = Some t /\
      bind_params (fst (summary_query s e c)) (snd (summary_query s e c)) = Ok bs /\
      out = summary_result bs t.
Proof.
  unfold run, summarize.
  destruct (summary_query s e c) as [ps params] eqn:Hq; simpl.
  unfold with_connection, connect, bind, fetchall,
    storage_call, storage_ok, close, sql_select_summary; simpl.
  run_cases orc; destruct f as [t|]; simpl;
    try (destruct (bind_params ps params) as [bs|err] eqn:Hb); simpl;
    split; intros; try discriminate; try reflexivity;
    injection H as <-; exists t, bs; auto.
Qed.

Lemma run_summarize_ok s e c t :
  exists bs,
    bind_params (fst (summary_query s e c)) (snd (summary_query s e c)) = Ok bs /\
    run (summarize s e c) (Some t) [] = (Some t, Ok (summary_result bs t)).
Proof.
  unfold run, summarize.
  assert (Hb : exists bs, bind_params (fst (summary_query s e c))
                            (snd (summary_query s e c)) = Ok bs).
  { unfold summary_query. destruct c as [c|]; simpl; [destruct (negb (c =? EmptyString)%string)|]; simpl; eauto. }
  destruct Hb as [bs Hb]. exists bs. split; [exact Hb|].
  destruct (summary_query s e c) as [ps params]; simpl in *.
  unfold with_connection, connect, bind, fetchall,
    storage_call, storage_ok, close, sql_select_summary; simpl.
  now rewrite Hb.
Qed.

Lemma run_add_expense f orc d a c sc n :
  match run (add_expense d a c sc n) f orc with
  | (f', Ok res) =>
      exists t, f = Some t /\ next_rowid t <= max_rowid_value /\ is_nan a = false /\
        res = mkAddResult "success" (next_rowid t) /\ f' = Some (inserted t d a c sc n)
  | (f', Err _) => f' = f
  end.
Proof.
  unfold run, add_expense, with_connection, connect, bind, ret, commit,
    storage_call, storage_ok, close, sql_insert; simpl.
  run_cases orc; destruct f as [t|]; simpl; try reflexivity.
  all: destruct (next_rowid t >? max_rowid_value) eqn:Hmax; simpl; try reflexivity.
  all: destruct (is_nan a) eqn:Hnan; simpl; try reflexivity.
  all: exists t; rewrite Z.gtb_ltb, Z.ltb_ge in Hmax; repeat split; auto.
Qed.

Lemma run_add_expense_ok t d a c sc n :
  next_rowid t <= max_rowid_value -> is_nan a = false ->
  run (add_expense d a c sc n) (Some t) [] =
    (Some (inserted t d a c sc n), Ok (mkAddResult "success" (next_rowid t))).
Proof.
  intros Hmax Hnan.
  unfold run, add_expense, with_connection, connect, bind, ret, commit,
    storage_call, storage_ok, close, sql_insert; simpl.
  assert (H : (next_rowid t >? max_rowid_value) = false)
    by (rewrite Z.gtb_ltb, Z.ltb_ge; exact Hmax).
  now rewrite H, Hnan.
Qed.

Lemma run_init_db f orc :
  match run init_db f orc with
  | (f', Ok _) => f' = init_file f
  | (f', Err _) => f' = f
  end.
Proof.
  unfold run, init_db, with_connection, connect, bind, commit_no_txn, ret,
    execute_autocommit, storage_ok, close, create_table_if_not_exists; simpl.
  run_cases orc; destruct f as [t|]; reflexivity.
Qed.

Lemma run_init_db_ok f : run init_db f [] = (init_file f, Ok tt).
Proof. destruct f; reflexivity. Qed.

Lemma Permutation_filter_compat {A} (p : A -> bool) l l' :
  Permutation l l' -> Permutation (filter p l) (filter p l').
Proof.
  induction 1 as [| x l l' _ IH | x y l | l l' l'' _ IH1 _ IH2]; simpl.
  - constructor.
  - destruct (p x); auto.
  - destruct (p x), (p y); try constructor; try apply perm_swap; reflexivity.
  - now transitivity (filter p l').
Qed.

Lemma filter_none {A} (p : A -> bool) l :
  (forall x, In x l -> p x = false) -> filter p l = [].
Proof.
  induction l as [|x l IH]; simpl; intros H; [reflexivity|].
  rewrite H by auto. apply IH. auto.
Qed.

Lemma max_rowid_ge r rows : In r rows -> id r <= max_rowid rows.
Proof.
  induction rows as [|r' rows IH]; simpl; [tauto|].
  intros [<-|Hin]; [lia|]. specialize (IH Hin). lia.
Qed.

Lemma next_rowid_gt t r : In r (t_rows t) -> id r < next_rowid t.
Proof. unfold next_rowid. intros H. apply max_rowid_ge in H. lia. Qed.



(** C4: whenever [list_expenses(start_date, end_date)] returns a result,
    it is exactly the multiset of stored rows whose date satisfies
    start_date <= date <= end_date in byte-wise lexicographic order
    (both ends inclusive). *)
Theorem list_range_inclusive f orc s e out :
  snd (run (list_expenses s e) f orc) = Ok out ->
  exists t, f = Some t /\
    Permutation out
      (filter (fun r => String.leb s (date r) && String.leb (date r) e) (t_rows t)).
Proof.
  intros H. destruct (run_list_expenses s e f orc) as [_ Hl].
  destruct (Hl out H) as (t & -> & ->). exists t. split; [reflexivity|].
  apply order_by_perm.
Qed.

(** C5: every result of [list_expenses] is sorted non-increasing by date:
    each element's date is >= the date of the element that follows it. *)
Theorem list_sorted_desc f orc s e out :
  snd (run (list_expenses s e) f orc) = Ok out ->
  Sorted (fun a b => String.leb (date b) (date a) = true) out.
Proof.
  intros H. destruct (run_list_expenses s e f orc) as [_ Hl].
  destruct (Hl out H) as (t & -> & ->).
  apply (order_by_sorted date_ge date_ge_total).
Qed.

Lemma summary_query_binds s e c :
  bind_params (fst (summary_query s e c)) (snd (summary_query s e c)) = Ok (summary_bs s e c).
Proof.
  unfold summary_query, summary_bs.
  destruct c as [c|]; [destruct (py_truthy (Some c))|]; reflexivity.
Qed.

Lemma run_summarize_full s e c f orc :
  fst (run (summarize s e c) f orc) = f /\
  forall out, snd (run (summarize s e c) f orc) = Ok out ->
    exists t, f = Some t /\ out = summary_result (summary_bs s e c) t.
Proof.
  destruct (run_summarize s e c f orc) as [Hf Hs]. split; [exact Hf|].
  intros out Hout. destruct (Hs out Hout) as (t & bs & Ht & Hb & ->).
  rewrite summary_query_binds in Hb. injection Hb as <-. eauto.
Qed.

Lemma run_summarize_healthy s e c t :
  run (summarize s e c) (Some t) [] = (Some t, Ok (summary_result (summary_bs s e c) t)).
Proof.
  destruct (run_summarize_ok s e c t) as (bs & Hb & Hrun).
  rewrite summary_query_binds in Hb. injection Hb as <-. exact Hrun.
Qed.

Lemma summary_bs_range s e c r :
  eval_where (summary_bs s e c) r = true -> between s e (date r) = true.
Proof.
  unfold summary_bs, eval_where. destruct c as [c|]; [destruct (py_truthy (Some c))|];
    simpl; rewrite ?andb_true_iff; tauto.
Qed.

(** C6: on working storage, when no row of the table has its date in
    [start_date, end_date] (also an empty or inverted range), [list_expenses]
    and [summarize] (with or without category) return the empty sequence
    and raise no error. *)
Theorem empty_range_empty_result t s e :
  (forall r, In r (t_rows t) -> String.leb s (date r) && String.leb (date r) e = false) ->
  run (list_expenses s e) (Some t) [] = (Some t, Ok []) /\
  (forall c, run (summarize s e c) (Some t) [] = (Some t, Ok [])).
Proof.
  intros Hnone. split.
  - rewrite run_list_expenses_ok. unfold list_result.
    now rewrite filter_none by exact Hnone.
  - intros c. rewrite run_summarize_healthy. unfold summary_result.
    rewrite filter_none; [reflexivity|].
    intros r Hr. destruct (eval_where (summary_bs s e c) r) eqn:Hw; [|reflexivity].
    apply summary_bs_range in Hw. unfold between, text_le in Hw.
    rewrite (Hnone r Hr) in Hw. discriminate.
Qed.

Lemma empty_range_empty_result_witness :
  (forall r, In r (t_rows (mkTable expenses_columns
                             [mkExpense 1 "2024-02-01" (of_Z 500) "Travel" None None] 1)) ->
     String.leb "2024-01-31" (date r) && String.leb (date r) "2024-01-01" = false) /\
  run (list_expenses "2024-01-31" "2024-01-01")
      (Some (mkTable expenses_columns [mkExpense 1 "2024-02-01" (of_Z 500) "Travel" None None] 1)) [] =
    (Some (mkTable expenses_columns [mkExpense 1 "2024-02-01" (of_Z 500) "Travel" None None] 1), Ok []) /\
  (forall c, run (summarize "2024-01-31" "2024-01-01" c)
      (Some (mkTable expenses_columns [mkExpense 1 "2024-02-01" (of_Z 500) "Travel" None None] 1)) [] =
    (Some (mkTable expenses_columns [mkExpense 1 "2024-02-01" (of_Z 500) "Travel" None None] 1), Ok [])).
Proof.
  assert (H : forall r, In r (t_rows (mkTable expenses_columns
                             [mkExpense 1 "2024-02-01" (of_Z 500) "Travel" None None] 1)) ->
     String.leb "2024-01-31" (date r) && String.leb (date r) "2024-01-01" = false).
  { simpl. intros r [<-|[]]. reflexivity. }
  split; [exact H|]. exact (empty_range_empty_result _ _ _ H).
Defined.


Lemma fsum_snoc l r : fsum (l ++ [r]) = fadd (fsum l) (amount r).
Proof. unfold fsum. now rewrite fold_left_app. Qed.

Lemma group_add_cats g r :
  map g_category (group_add g r) =
    if existsb (fun c => String.eqb c (category r)) (map g_category g)
    then map g_category g else map g_category g ++ [category r].
Proof.
  induction g as [|x g IH]; simpl; [reflexivity|].
  destruct (String.eqb (g_category x) (category r)); simpl; [reflexivity|].
  rewrite IH. destruct (existsb _ _); reflexivity.
Qed.

Lemma in_cats_existsb c l :
  existsb (fun c' => String.eqb c' c) l = true <-> In c l.
Proof.
  rewrite existsb_exists. split.
  - intros (c' & Hin & Heq). apply String.eqb_eq in Heq. now subst.
  - intros Hin. exists c. split; [exact Hin|]. apply String.eqb_refl.
Qed.

Lemma group_add_in g r x :
  NoDup (map g_category g) -> In x (group_add g r) ->
  (In x g /\ g_category x <> category r) \/
  (g_category x = category r /\
   ((exists y, In y g /\ g_category y = category r /\
       g_sum x = fadd (g_sum y) (amount r) /\ g_count x = g_count y + 1) \/
    (~ In (category r) (map g_category g) /\
       g_sum x = fadd fzero (amount r) /\ g_count x = 1))).
Proof.
  induction g as [|y g IH]; simpl; intros Hnd Hin.
  - destruct Hin as [<-|[]]. right. simpl. split; [reflexivity|]. right. auto.
  - inversion Hnd as [|? ? Hnotin Hnd']; subst.
    destruct (String.eqb (g_category y) (category r)) eqn:Hyc.
    + apply String.eqb_eq in Hyc. destruct Hin as [<-|Hin].
      * right. simpl. split; [exact Hyc|]. left. exists y. auto.
      * left. split; [now right|]. intros Hx. apply Hnotin.
        rewrite Hyc, <- Hx. now apply in_map.
    + apply String.eqb_neq in Hyc. destruct Hin as [<-|Hin].
      * left. auto.
      * destruct (IH Hnd' Hin) as [[H1 H2]|[H1 [(y' & H3 & H4)|(H3 & H4)]]].
        -- left. auto.
        -- right. split; [exact H1|]. left. exists y'. auto.
        -- right. split; [exact H1|]. right. split; [|exact H4].
           intros [H5|H5]; [exact (Hyc H5)|exact (H3 H5)].
Qed.

Lemma cat_rows_snoc c done r :
  cat_rows c (done ++ [r]) =
    cat_rows c done ++ (if String.eqb (category r) c then [r] else []).
Proof. unfold cat_rows. rewrite filter_app. reflexivity. Qed.

Lemma group_inv_step g done r :
  group_inv g done -> group_inv (group_add g r) (done ++ [r]).
Proof.
  intros (Hnd & Hcats & Htot).
  assert (Hcats' : forall c, In c (map g_category (group_add g r)) <->
                        In c (map g_category g) \/ c = category r).
  { intros c. rewrite group_add_cats.
    destruct (existsb _ _) eqn:He.
    - apply in_cats_existsb in He. split; [auto|]. intros [H | ->]; auto.
    - rewrite in_app_iff. simpl. intuition. }
  split; [|split].
  - rewrite group_add_cats. destruct (existsb _ _) eqn:He; [exact Hnd|].
    apply NoDup_app; [exact Hnd|repeat constructor; simpl; tauto|].
    intros c Hc [<-|[]]. apply in_cats_existsb in Hc. congruence.
  - intros c. rewrite Hcats', Hcats. split.
    + intros [(r' & Hr' & Hc) | ->].
      * exists r'. rewrite in_app_iff. auto.
      * exists r. rewrite in_app_iff. simpl. auto.
    + intros (r' & Hr' & Hc). apply in_app_iff in Hr' as [Hr'|[<-|[]]]; eauto.
  - intros x Hx. rewrite cat_rows_snoc.
    destruct (group_add_in g r x Hnd Hx)
      as [[Hin Hne]|[Hxc [(y & Hy & Hyc & Ht & Hn)|(Hnot & Ht & Hn)]]].
    + rewrite (proj2 (String.eqb_neq _ _)) by congruence. rewrite app_nil_r.
      now apply Htot.
    + rewrite Hxc, String.eqb_refl. rewrite fsum_snoc, length_app.
      destruct (Htot y Hy) as [Hty Hny]. rewrite Hyc in Hty, Hny.
      simpl. rewrite Ht, Hn, Hty, Hny. split; [reflexivity|lia].
    + rewrite Hxc, String.eqb_refl.
      assert (Hnil : cat_rows (category r) done = []).
      { apply filter_none. intros r' Hr'. apply String.eqb_neq. intros Hc.
        apply Hnot, Hcats. eauto. }
      rewrite Hnil. simpl. rewrite Ht, Hn. split; reflexivity.
Qed.

Lemma group_inv_fold rows g done :
  group_inv g done -> group_inv (fold_left group_add rows g) (done ++ rows).
Proof.
  revert g done; induction rows as [|r rows IH]; intros g done H; simpl.
  - now rewrite app_nil_r.
  - replace (done ++ r :: rows) with ((done ++ [r]) ++ rows)
      by now rewrite <- app_assoc.
    apply IH, group_inv_step, H.
Qed.

Lemma group_by_category_inv rows : group_inv (group_by_category rows) rows.
Proof.
  apply (group_inv_fold rows [] []).
  split; [constructor|]. split.
  - intros c. simpl. split; [tauto|]. intros (r & [] & _).
  - intros x [].
Qed.

Lemma summary_list_inv rows : summary_inv (map finalize (group_by_category rows)) rows.
Proof.
  destruct (group_by_category_inv rows) as (Hnd & Hcats & Htot).
  assert (Hm : map s_category (map finalize (group_by_category rows)) =
               map g_category (group_by_category rows))
    by (rewrite map_map; reflexivity).
  split; [|split].
  - now rewrite Hm.
  - intros c. rewrite Hm. apply Hcats.
  - intros x Hx. apply in_map_iff in Hx as (y & <- & Hy).
    destruct (Htot y Hy) as [Hs Hc]. simpl. now rewrite Hs, Hc.
Qed.

(** The output rows of a summary, in any order, satisfy [summary_inv]. *)
Lemma summary_inv_perm out out' ms :
  Permutation out out' -> summary_inv out ms -> summary_inv out' ms.
Proof.
  intros Hp (Hnd & Hcats & Htot). split; [|split].
  - eapply Permutation_NoDup; [|exact Hnd]. now apply Permutation_map.
  - intros c. rewrite <- Hcats. split; apply Permutation_in, Permutation_map;
      [apply Permutation_sym, Hp|exact Hp].
  - intros x Hx. apply Htot. eapply Permutation_in; [apply Permutation_sym, Hp|exact Hx].
Qed.

Lemma summary_result_inv bs t :
  summary_inv (summary_result bs t) (filter (eval_where bs) (t_rows t)).
Proof.
  unfold summary_result. eapply summary_inv_perm.
  - apply Permutation_sym, order_by_perm.
  - apply summary_list_inv.
Qed.

Lemma Sorted_weaken {A} (R R' : A -> A -> Prop) l :
  (forall a b, R a b -> R' a b) -> Sorted R l -> Sorted R' l.
Proof.
  intros HR. induction 1 as [|a l Hs IH Hd]; constructor; [exact IH|].
  destruct Hd; constructor. now apply HR.
Qed.

(** C2 (amended): whenever [summarize(start_date, end_date)] without
    category returns a result, it has one entry per distinct category among
    the rows in the range; each entry's count is the number of that
    category's rows in the range, and its total_amount is the IEEE-754 double
    sum of their amounts, added one by one to 0.0 in rowid order (NULL when
    that sum is NaN), which may differ from the exact sum; the sequence is
    ordered by total_amount descending under SQL comparison (no entry is
    followed by one with a larger total, NULL counting as the smallest). *)
Theorem summarize_groups_double f orc s e out :
  snd (run (summarize s e None) f orc) = Ok out ->
  exists t, f = Some t /\
    let ms := filter (fun r => between s e (date r)) (t_rows t) in
    NoDup (map s_category out) /\
    (forall c, In c (map s_category out) <-> exists r, In r ms /\ category r = c) /\
    (forall x, In x out ->
       total_amount x =
         sql_real (fsum (filter (fun r => String.eqb (category r) (s_category x)) ms)) /\
       count x =
         Z.of_nat (List.length (filter (fun r => String.eqb (category r) (s_category x)) ms))) /\
    Sorted (fun a b => sql_lt (total_amount a) (total_amount b) = false) out.
Proof.
  intros H. destruct (run_summarize_full s e None f orc) as [_ Hs].
  destruct (Hs out H) as (t & -> & ->). exists t. split; [reflexivity|].
  pose proof (summary_result_inv (summary_bs s e None) t) as Hinv.
  pose proof (order_by_sorted total_ge total_ge_total
                (map finalize (group_by_category (filter (eval_where (summary_bs s e None)) (t_rows t)))))
    as Hsort.
  unfold summary_result, summary_bs in *.
  rewrite (filter_ext _ _ (eval_where_between s e)) in Hinv, Hsort |- *.
  destruct Hinv as (Hnd & Hcats & Htot).
  split; [exact Hnd|]. split; [exact Hcats|]. split; [exact Htot|].
  eapply Sorted_weaken; [|exact Hsort].
  intros a b Hab. unfold total_ge in Hab. now apply negb_true_iff in Hab.
Qed.


(** C3: [summarize] with the empty string as category value does not filter
    then group.  On a table holding a row of empty category and a row of
    category Food, [summarize] with the empty category returns two rows,
    while restricting to the empty category and then grouping gives one
    row. *)
Theorem summarize_empty_category_not_filtered :
  snd (run (summarize "2024-01-01" "2024-01-31" (Some EmptyString)) c3_file []) =
    Ok [mkSummary "Food" (Some (of_Z 1000)) 1; mkSummary EmptyString (Some (of_Z 500)) 1] /\
  order_by total_ge
    (map finalize (group_by_category
       (filter (fun r => String.eqb (category r) EmptyString)
          (filter (fun r => between "2024-01-01" "2024-01-31" (date r)) (rows_of c3_file))))) =
    [mkSummary EmptyString (Some (of_Z 500)) 1].
Proof. vm_compute. split; reflexivity. Qed.

Lemma filter_where_category s e c rows :
  filter (eval_where [BDateBetween s e; BCategoryEq c]) rows =
  filter (fun r => String.eqb (category r) c) (filter (fun r => between s e (date r)) rows).
Proof.
  rewrite (filter_ext _ (fun r => between s e (date r) && String.eqb (category r) c)).
  - induction rows as [|r rows IH]; simpl; [reflexivity|].
    destruct (between s e (date r)) eqn:Hb, (String.eqb (category r) c) eqn:Hc; simpl; rewrite ?Hb, ?Hc, IH; reflexivity.
  - intros r. unfold eval_where; simpl. now rewrite andb_true_r.
Qed.

Lemma nodup_same_key_length (l : list summary) c :
  NoDup (map s_category l) -> (forall x, In x l -> s_category x = c) -> (List.length l <= 1)%nat.
Proof.
  destruct l as [|x [|y l]]; simpl; intros Hnd Hc; try lia.
  inversion Hnd as [|? ? Hnotin _]; subst. exfalso. apply Hnotin.
  rewrite (Hc x (or_introl eq_refl)), <- (Hc y (or_intror (or_introl eq_refl))).
  now left.
Qed.

(** With a non-empty category, [summarize] filters then groups, and gives at
    most one row. *)
Lemma summarize_nonempty_category s e c t :
  c <> EmptyString ->
  run (summarize s e (Some c)) (Some t) [] =
    (Some t, Ok (order_by total_ge (map finalize (group_by_category
                  (filter (fun r => String.eqb (category r) c)
                     (filter (fun r => between s e (date r)) (t_rows t))))))) /\
  (List.length (order_by total_ge (map finalize (group_by_category
                  (filter (fun r => String.eqb (category r) c)
                     (filter (fun r => between s e (date r)) (t_rows t)))))) <= 1)%nat.
Proof.
  intros Hc. split.
  - rewrite run_summarize_healthy. unfold summary_result, summary_bs, py_truthy.
    rewrite (proj2 (String.eqb_neq c EmptyString) Hc). simpl.
    now rewrite filter_where_category.
  - set (ms := filter _ (filter _ _)).
    destruct (summary_inv_perm _ _ ms (Permutation_sym (order_by_perm total_ge _))
                (summary_list_inv ms)) as (Hnd & Hcats & _).
    apply (nodup_same_key_length _ c).
    + exact Hnd.
    + intros x Hx.
      destruct (proj1 (Hcats (s_category x)) (in_map _ _ _ Hx)) as (r & Hr & <-).
      unfold ms in Hr. apply filter_In in Hr as [_ Hr]. now apply String.eqb_eq.
Qed.

(** C10: [summarize] with the empty string as category behaves exactly like
    [summarize] without category, on every database and storage outcome:
    the category predicate is omitted (the empty string is falsy in
    Python). *)
Theorem summarize_empty_category_is_absent s e f orc :
  run (summarize s e (Some EmptyString)) f orc = run (summarize s e None) f orc.
Proof. reflexivity. Qed.

Lemma init_file_idem f : init_file (init_file f) = init_file f.
Proof. destruct f; reflexivity. Qed.

(** C8: [init_db] is idempotent.  On working storage, calling it n+1 times
    gives the same file as calling it once, it never errors (in particular
    on an existing table), an existing table and its rows are kept as they
    are, and on an empty file it creates the declared [expenses] table. *)
Theorem init_db_idempotent n f :
  init_n (S n) f = init_n 1 f /\
  (forall k, snd (run init_db (init_n k f) []) = Ok tt) /\
  (forall t, f = Some t -> init_n (S n) f = Some t) /\
  (f = None -> init_n (S n) f = Some (mkTable expenses_columns [] 0)).
Proof.
  assert (Hn : forall n, init_n (S n) f = init_file f).
  { induction n0 as [|n0 IH]; simpl in *.
    - now rewrite run_init_db_ok.
    - rewrite IH, run_init_db_ok. apply init_file_idem. }
  split; [|split; [|split]].
  - now rewrite !Hn.
  - intros k. now rewrite run_init_db_ok.
  - intros t ->. now rewrite Hn.
  - intros ->. now rewrite Hn.
Qed.

(** ** Identifiers across a run *)

Lemma added_ids_cons o outs : added_ids (o :: outs) = out_ids o ++ added_ids outs.
Proof. destruct o as [r|[r|]|r|r]; reflexivity. Qed.

Lemma hi_ge f r : In r (rows_of f) -> id r <= hi f.
Proof.
  destruct f as [t|]; simpl; [|tauto]. intros H. apply max_rowid_ge in H. lia.
Qed.

Lemma max_rowid_app l1 l2 : max_rowid (l1 ++ l2) = Z.max (max_rowid l1) (max_rowid l2).
Proof.
  induction l1 as [|r l1 IH]; simpl.
  - (* max_rowid is at least 0 *) 
    assert (H : 0 <= max_rowid l2) by (induction l2; simpl; lia). lia.
  - rewrite IH. lia.
Qed.

Lemma run_op_step o f orc :
  let (f', out) := run_op o f orc in
  hi f <= hi f' /\
  (exists extra, rows_of f' = rows_of f ++ extra) /\
  (NoDup (map id (rows_of f)) -> NoDup (map id (rows_of f'))) /\
  Forall (fun n => hi f < n <= hi f') (out_ids out).
Proof.
  destruct o as [|d a c sc n|s e|s e cat]; simpl.
  - pose proof (run_init_db f orc) as H.
    destruct (run init_db f orc) as [f' [u|err]]; subst f'.
    + destruct f as [t|]; simpl; repeat split; auto; try lia;
        try (exists []; now rewrite app_nil_r); try (exists []; reflexivity).
    + repeat split; auto; try lia. exists []. now rewrite app_nil_r.
  - pose proof (run_add_expense f orc d a c sc n) as H.
    destruct (run (add_expense d a c sc n) f orc) as [f' [res|err]].
    + destruct H as (t & -> & _ & _ & -> & ->). simpl.
      unfold next_rowid. rewrite max_rowid_app. simpl.
      repeat split.
      * lia.
      * eauto.
      * intros Hnd. rewrite map_app. simpl.
        apply NoDup_app; [exact Hnd|repeat constructor; simpl; tauto|].
        intros x Hx [Hy|[]]. apply in_map_iff in Hx as (r & <- & Hr).
        pose proof (next_rowid_gt t r Hr) as Hlt. unfold next_rowid in Hlt. lia.
      * constructor; [|constructor]. simpl. lia.
    + subst f'. repeat split; auto; try lia. exists []. now rewrite app_nil_r.
  - destruct (run_list_expenses s e f orc) as [Hf _].
    destruct (run (list_expenses s e) f orc) as [f' r]. simpl in Hf. subst f'.
    repeat split; auto; try lia. exists []. now rewrite app_nil_r.
  - destruct (run_summarize s e cat f orc) as [Hf _].
    destruct (run (summarize s e cat) f orc) as [f' r]. simpl in Hf. subst f'.
    repeat split; auto; try lia. exists []. now rewrite app_nil_r.
Qed.

Lemma StronglySorted_app_lt (l1 l2 : list Z) :
  StronglySorted Z.lt l1 -> StronglySorted Z.lt l2 ->
  (forall x y, In x l1 -> In y l2 -> x < y) -> StronglySorted Z.lt (l1 ++ l2).
Proof.
  induction l1 as [|x l1 IH]; simpl; intros H1 H2 H; [exact H2|].
  inversion H1 as [|? ? Hs Hf]; subst. constructor.
  - apply IH; auto.
  - apply Forall_app. split; [exact Hf|]. apply Forall_forall. intros y Hy. auto.
Qed.

Lemma out_ids_sorted o : StronglySorted Z.lt (out_ids o).
Proof. destruct o as [r|[r|]|r|r]; simpl; repeat constructor. Qed.

Lemma run_ops_ids os f :
  NoDup (map id (rows_of f)) ->
  let (f', outs) := run_ops os f in
  StronglySorted Z.lt (added_ids outs) /\
  Forall (fun n => hi f < n <= hi f') (added_ids outs) /\
  hi f <= hi f' /\
  NoDup (map id (rows_of f')) /\
  (exists extra, rows_of f' = rows_of f ++ extra).
Proof.
  revert f; induction os as [|[o orc] os IH]; intros f Hnd; simpl.
  - split; [constructor|split; [constructor|split; [lia|split; [exact Hnd|exists []; now rewrite app_nil_r]]]].
  - pose proof (run_op_step o f orc) as Hstep.
    destruct (run_op o f orc) as [f1 out1].
    destruct Hstep as (Hhi1 & (ex1 & Hex1) & Hnd1 & Hids1).
    specialize (IH f1 (Hnd1 Hnd)).
    destruct (run_ops os f1) as [f2 outs].
    destruct IH as (Hs2 & Hids2 & Hhi2 & Hnd2 & (ex2 & Hex2)).
    rewrite added_ids_cons.
    repeat split.
    + apply StronglySorted_app_lt; [apply out_ids_sorted|exact Hs2|].
      intros x y Hx Hy.
      rewrite Forall_forall in Hids1, Hids2.
      specialize (Hids1 x Hx). specialize (Hids2 y Hy). lia.
    + apply Forall_app. split.
      * eapply Forall_impl; [|exact Hids1]. simpl. intros n Hn. lia.
      * eapply Forall_impl; [|exact Hids2]. simpl. intros n Hn. lia.
    + lia.
    + exact Hnd2.
    + exists (ex1 ++ ex2). now rewrite Hex2, Hex1, app_assoc.
Qed.

(** C9: along any sequence of calls starting from a table with distinct
    ids, the identifiers returned by successful inserts are strictly
    increasing and larger than every id already present, ids stay unique,
    and the rows present at the start are never changed or removed (the
    table only grows at its end). *)
Theorem ids_unique_increasing os f :
  NoDup (map id (rows_of f)) ->
  let (f', outs) := run_ops os f in
  StronglySorted Z.lt (added_ids outs) /\
  Forall (fun n => forall r, In r (rows_of f) -> id r < n) (added_ids outs) /\
  NoDup (map id (rows_of f')) /\
  (exists extra, rows_of f' = rows_of f ++ extra).
Proof.
  intros Hnd. pose proof (run_ops_ids os f Hnd) as H.
  destruct (run_ops os f) as [f' outs].
  destruct H as (Hs & Hids & _ & Hnd' & Hex).
  repeat split; auto.
  eapply Forall_impl; [|exact Hids]. simpl. intros n Hn r Hr.
  pose proof (hi_ge f r Hr). lia.
Qed.

Lemma list_range_inclusive_witness :
  snd (run (list_expenses "2024-01-01" "2024-01-31") sample_file []) =
    Ok [mkExpense 1 "2024-01-15" (of_Z 4250) "Food" None None;
        mkExpense 2 "2024-01-01" (of_Z 1000) "Food" None None] /\
  exists t, sample_file = Some t /\
    Permutation [mkExpense 1 "2024-01-15" (of_Z 4250) "Food" None None;
                 mkExpense 2 "2024-01-01" (of_Z 1000) "Food" None None]
      (filter (fun r => String.leb "2024-01-01" (date r) && String.leb (date r) "2024-01-31")
         (t_rows t)).
Proof.
  assert (H : snd (run (list_expenses "2024-01-01" "2024-01-31") sample_file []) =
    Ok [mkExpense 1 "2024-01-15" (of_Z 4250) "Food" None None;
        mkExpense 2 "2024-01-01" (of_Z 1000) "Food" None None]) by (vm_compute; reflexivity).
  split; [exact H|]. exact (list_range_inclusive _ _ _ _ _ H).
Defined.

Lemma list_sorted_desc_witness :
  snd (run (list_expenses "2024-01-01" "2024-02-28") sample_file []) =
    Ok [mkExpense 3 "2024-02-01" (of_Z 500) "Travel" None None;
        mkExpense 1 "2024-01-15" (of_Z 4250) "Food" None None;
        mkExpense 2 "2024-01-01" (of_Z 1000) "Food" None None] /\
  Sorted (fun a b => String.leb (date b) (date a) = true)
    [mkExpense 3 "2024-02-01" (of_Z 500) "Travel" None None;
     mkExpense 1 "2024-01-15" (of_Z 4250) "Food" None None;
     mkExpense 2 "2024-01-01" (of_Z 1000) "Food" None None].
Proof.
  assert (H : snd (run (list_expenses "2024-01-01" "2024-02-28") sample_file []) =
    Ok [mkExpense 3 "2024-02-01" (of_Z 500) "Travel" None None;
        mkExpense 1 "2024-01-15" (of_Z 4250) "Food" None None;
        mkExpense 2 "2024-01-01" (of_Z 1000) "Food" None None]) by (vm_compute; reflexivity).
  split; [exact H|]. exact (list_sorted_desc _ _ _ _ _ H).
Defined.

Lemma summarize_groups_witness :
  snd (run (summarize "2024-01-01" "2024-02-28" None) sample_file []) =
    Ok [mkSummary "Food" (Some (of_Z 5250)) 2; mkSummary "Travel" (Some (of_Z 500)) 1] /\
  exists t, sample_file = Some t /\
    let ms := filter (fun r => between "2024-01-01" "2024-02-28" (date r)) (t_rows t) in
    NoDup (map s_category [mkSummary "Food" (Some (of_Z 5250)) 2; mkSummary "Travel" (Some (of_Z 500)) 1]) /\
    (forall c, In c (map s_category [mkSummary "Food" (Some (of_Z 5250)) 2; mkSummary "Travel" (Some (of_Z 500)) 1]) <->
               exists r, In r ms /\ category r = c) /\
    (forall x, In x [mkSummary "Food" (Some (of_Z 5250)) 2; mkSummary "Travel" (Some (of_Z 500)) 1] ->
       total_amount x =
         sql_real (fsum (filter (fun r => String.eqb (category r) (s_category x)) ms)) /\
       count x =
         Z.of_nat (List.length (filter (fun r => String.eqb (category r) (s_category x)) ms))) /\
    Sorted (fun a b => sql_lt (total_amount a) (total_amount b) = false)
      [mkSummary "Food" (Some (of_Z 5250)) 2; mkSummary "Travel" (Some (of_Z 500)) 1].
Proof.
  assert (H : snd (run (summarize "2024-01-01" "2024-02-28" None) sample_file []) =
    Ok [mkSummary "Food" (Some (of_Z 5250)) 2; mkSummary "Travel" (Some (of_Z 500)) 1]) by (vm_compute; reflexivity).
  split; [exact H|]. exact (summarize_groups_double _ _ _ _ _ H).
Defined.

(** C2, counterexample: SUM adds doubles, so a total need not be the sum of
    the amounts.  Three Food rows with amounts 1e16, 1.0 and 1.0 (all
    exact doubles) have the sum 10000000000000002, itself an exact double,
    but 1e16 + 1.0 rounds back to 1e16 (ties to even), and [summarize]
    reports the total 1e16. *)
Lemma summarize_groups_rounding :
  map amount (rows_of c2_file) = [of_Z 10000000000000000; of_Z 1; of_Z 1] /\
  denotes_int (of_Z 10000000000000000) 10000000000000000 = true /\
  denotes_int (of_Z 1) 1 = true /\
  denotes_int (of_Z 10000000000000002) 10000000000000002 = true /\
  snd (run (summarize "2024-01-01" "2024-01-31" None) c2_file []) =
    Ok [mkSummary "Food" (Some (of_Z 10000000000000000)) 3] /\
  of_Z 10000000000000000 <> of_Z 10000000000000002.
Proof.
  repeat split; try (vm_compute; reflexivity).
  vm_compute. discriminate.
Qed.

Lemma ids_unique_increasing_witness :
  NoDup (map id (rows_of None)) /\
  let (f', outs) := run_ops sample_calls None in
  StronglySorted Z.lt (added_ids outs) /\
  Forall (fun n => forall r, In r (rows_of None) -> id r < n) (added_ids outs) /\
  NoDup (map id (rows_of f')) /\
  (exists extra, rows_of f' = rows_of None ++ extra).
Proof.
  assert (H : NoDup (map id (rows_of None))) by constructor.
  split; [exact H|]. exact (ids_unique_increasing sample_calls None H).
Defined.

(** ** Further properties of the code *)

Lemma string_leb_compare a b : String.leb a b = true <-> String.compare a b <> Gt.
Proof. unfold String.leb. destruct (String.compare a b); split; congruence. Qed.

Lemma string_compare_trans a b c :
  String.compare a b <> Gt -> String.compare b c <> Gt -> String.compare a c <> Gt.
Proof.
  revert b c; induction a as [|x a IH]; intros [|y b] [|z c]; simpl;
    try congruence.
  unfold Ascii.compare.
  destruct (N.compare_spec (Ascii.N_of_ascii x) (Ascii.N_of_ascii y)) as [Hxy|Hxy|Hxy];
  destruct (N.compare_spec (Ascii.N_of_ascii y) (Ascii.N_of_ascii z)) as [Hyz|Hyz|Hyz];
  try congruence; intros H1 H2.
  - rewrite Hxy, Hyz, N.compare_refl. now apply (IH b).
  - rewrite Hxy. rewrite (proj2 (N.compare_lt_iff _ _) Hyz). congruence.
  - rewrite Hyz in Hxy. rewrite (proj2 (N.compare_lt_iff _ _) Hxy). congruence.
  - rewrite (proj2 (N.compare_lt_iff _ _) (N.lt_trans _ _ _ Hxy Hyz)). congruence.
Qed.

Lemma text_le_trans a b c : text_le a b = true -> text_le b c = true -> text_le a c = true.
Proof.
  unfold text_le. rewrite !string_leb_compare. apply string_compare_trans.
Qed.

(** X1: on working storage with the table present, [add_expense] performs
    no validation of its own: it succeeds exactly when the next
    AUTOINCREMENT rowid is at most 2^63 - 1 and the amount is not NaN (a
    NaN is stored as NULL and violates [amount REAL NOT NULL]); any date,
    category, subcategory and note are accepted. *)
Theorem add_expense_success_iff t d a c sc n :
  (exists res, snd (run (add_expense d a c sc n) (Some t) []) = Ok res) <->
  next_rowid t <= max_rowid_value /\ is_nan a = false.
Proof.
  split.
  - intros (res & Hres).
    pose proof (run_add_expense (Some t) [] d a c sc n) as H.
    destruct (run (add_expense d a c sc n) (Some t) []) as [f' r].
    simpl in Hres. subst r. simpl in H. destruct H as (t' & Ht & Hmax & Hnan & _).
    injection Ht as <-. auto.
  - intros [Hmax Hnan]. rewrite run_add_expense_ok by assumption. eexists; reflexivity.
Qed.

(** X2: before the table exists, every operation of the store fails and
    the database file still has no [expenses] table. *)
Theorem operations_need_table orc d a c sc n s e cat :
  (fst (run (add_expense d a c sc n) None orc) = None /\
   exists err, snd (run (add_expense d a c sc n) None orc) = Err err) /\
  (fst (run (list_expenses s e) None orc) = None /\
   exists err, snd (run (list_expenses s e) None orc) = Err err) /\
  (fst (run (summarize s e cat) None orc) = None /\
   exists err, snd (run (summarize s e cat) None orc) = Err err).
Proof.
  split; [|split].
  - pose proof (run_add_expense None orc d a c sc n) as H.
    destruct (run (add_expense d a c sc n) None orc) as [f' [res|err]]; simpl.
    + destruct H as (t & Ht & _). discriminate.
    + eauto.
  - destruct (run_list_expenses s e None orc) as [Hf Hl].
    destruct (run (list_expenses s e) None orc) as [f' [out|err]]; simpl in *.
    + destruct (Hl out eq_refl) as (t & Ht & _). discriminate.
    + eauto.
  - destruct (run_summarize_full s e cat None orc) as [Hf Hl].
    destruct (run (summarize s e cat) None orc) as [f' [out|err]]; simpl in *.
    + destruct (Hl out eq_refl) as (t & Ht & _). discriminate.
    + eauto.
Qed.

Lemma run_op_rows o f orc :
  let (f', out) := run_op o f orc in
  map id (rows_of f') = map id (rows_of f) ++ out_ids out.
Proof.
  destruct o as [|d a c sc n|s e|s e cat]; simpl.
  - pose proof (run_init_db f orc) as H.
    destruct (run init_db f orc) as [f' [u|err]]; subst f'; simpl;
      [destruct f|]; simpl; now rewrite ?app_nil_r.
  - pose proof (run_add_expense f orc d a c sc n) as H.
    destruct (run (add_expense d a c sc n) f orc) as [f' [res|err]].
    + destruct H as (t & -> & _ & _ & -> & ->). simpl. now rewrite map_app.
    + subst f'. simpl. now rewrite app_nil_r.
  - destruct (run_list_expenses s e f orc) as [Hf _].
    destruct (run (list_expenses s e) f orc) as [f' r]. simpl in Hf. subst f'.
    simpl. now rewrite app_nil_r.
  - destruct (run_summarize s e cat f orc) as [Hf _].
    destruct (run (summarize s e cat) f orc) as [f' r]. simpl in Hf. subst f'.
    simpl. now rewrite app_nil_r.
Qed.

(** X3: along any sequence of calls, the rows of the table are the rows it
    started with followed by one new row per successful insert, carrying
    the identifiers those inserts returned, in order; no other call adds,
    removes or reorders rows. *)
Theorem run_ops_appends_inserted os f :
  let (f', outs) := run_ops os f in
  map id (rows_of f') = map id (rows_of f) ++ added_ids outs.
Proof.
  revert f; induction os as [|[o orc] os IH]; intros f; simpl.
  - now rewrite app_nil_r.
  - pose proof (run_op_rows o f orc) as Hstep.
    destruct (run_op o f orc) as [f1 out1].
    specialize (IH f1). destruct (run_ops os f1) as [f2 outs].
    rewrite IH, Hstep, added_ids_cons. symmetry. apply app_assoc.
Qed.

Lemma group_add_counts g r :
  sum_counts (map finalize (group_add g r)) = sum_counts (map finalize g) + 1.
Proof.
  induction g as [|x g IH]; simpl; [lia|].
  destruct (String.eqb (g_category x) (category r)); simpl; lia.
Qed.

Lemma group_fold_counts rows g :
  sum_counts (map finalize (fold_left group_add rows g)) =
    sum_counts (map finalize g) + Z.of_nat (List.length rows).
Proof.
  revert g; induction rows as [|r rows IH]; intros g; simpl; [lia|].
  rewrite IH, group_add_counts. lia.
Qed.

Lemma sum_counts_perm l l' : Permutation l l' -> sum_counts l = sum_counts l'.
Proof. induction 1; simpl; lia. Qed.

(** X4: the counts of a summary reconcile with the rows it summarises: the
    [count] column sums to the number of rows the query selects (every
    selected row is counted in exactly one group). *)
Theorem summary_counts_reconcile f orc s e cat out :
  snd (run (summarize s e cat) f orc) = Ok out ->
  exists t, f = Some t /\
    sum_counts out =
      Z.of_nat (List.length (filter (eval_where (summary_bs s e cat)) (t_rows t))).
Proof.
  intros H. destruct (run_summarize_full s e cat f orc) as [_ Hs].
  destruct (Hs out H) as (t & -> & ->). exists t. split; [reflexivity|].
  unfold summary_result.
  set (ms := filter _ (t_rows t)).
  rewrite (sum_counts_perm _ _ (order_by_perm total_ge _)).
  unfold group_by_category. rewrite group_fold_counts. simpl. lia.
Qed.

Lemma summary_counts_reconcile_witness :
  snd (run (summarize "2024-01-01" "2024-02-28" None) sample_file []) =
    Ok [mkSummary "Food" (Some (of_Z 5250)) 2; mkSummary "Travel" (Some (of_Z 500)) 1] /\
  exists t, sample_file = Some t /\
    sum_counts [mkSummary "Food" (Some (of_Z 5250)) 2; mkSummary "Travel" (Some (of_Z 500)) 1] =
      Z.of_nat (List.length
        (filter (eval_where (summary_bs "2024-01-01" "2024-02-28" None)) (t_rows t))).
Proof.
  assert (H : snd (run (summarize "2024-01-01" "2024-02-28" None) sample_file []) =
    Ok [mkSummary "Food" (Some (of_Z 5250)) 2; mkSummary "Travel" (Some (of_Z 500)) 1])
    by (vm_compute; reflexivity).
  split; [exact H|]. exact (summary_counts_reconcile _ _ _ _ _ _ H).
Defined.

(** X5: [summarize] never reports an empty group: every entry it returns
    counts at least one row, and that row is in the date range and of the
    entry's category. *)
Theorem summary_groups_nonempty f orc s e cat out x :
  snd (run (summarize s e cat) f orc) = Ok out -> In x out ->
  1 <= count x /\
  exists t r, f = Some t /\ In r (t_rows t) /\
    between s e (date r) = true /\ category r = s_category x.
Proof.
  intros H Hx. destruct (run_summarize_full s e cat f orc) as [_ Hs].
  destruct (Hs out H) as (t & -> & ->).
  unfold summary_result in Hx.
  set (ms := filter (eval_where (summary_bs s e cat)) (t_rows t)) in Hx.
  destruct (summary_list_inv ms) as (_ & Hcats & Htot).
  apply (Permutation_in _ (order_by_perm total_ge _)) in Hx.
  destruct (proj1 (Hcats (s_category x)) (in_map _ _ _ Hx)) as (r & Hr & Hrc).
  destruct (Htot x Hx) as [_ Hcount].
  assert (Hin : In r (cat_rows (s_category x) ms)).
  { apply filter_In. split; [exact Hr|]. now apply String.eqb_eq. }
  split.
  - rewrite Hcount. destruct (cat_rows (s_category x) ms); [destruct Hin|]. simpl. lia.
  - unfold ms in Hr. apply filter_In in Hr as [Hr Hw].
    exists t, r. repeat split; auto. now apply (summary_bs_range s e cat).
Qed.

Lemma summary_groups_nonempty_witness :
  snd (run (summarize "2024-01-01" "2024-02-28" None) sample_file []) =
    Ok [mkSummary "Food" (Some (of_Z 5250)) 2; mkSummary "Travel" (Some (of_Z 500)) 1] /\
  In (mkSummary "Travel" (Some (of_Z 500)) 1) [mkSummary "Food" (Some (of_Z 5250)) 2; mkSummary "Travel" (Some (of_Z 500)) 1] /\
  1 <= count (mkSummary "Travel" (Some (of_Z 500)) 1) /\
  exists t r, sample_file = Some t /\ In r (t_rows t) /\
    between "2024-01-01" "2024-02-28" (date r) = true /\
    category r = s_category (mkSummary "Travel" (Some (of_Z 500)) 1).
Proof.
  assert (H : snd (run (summarize "2024-01-01" "2024-02-28" None) sample_file []) =
    Ok [mkSummary "Food" (Some (of_Z 5250)) 2; mkSummary "Travel" (Some (of_Z 500)) 1]) by (vm_compute; reflexivity).
  assert (Hin : In (mkSummary "Travel" (Some (of_Z 500)) 1)
                  [mkSummary "Food" (Some (of_Z 5250)) 2; mkSummary "Travel" (Some (of_Z 500)) 1]) by (simpl; auto).
  split; [exact H|]. split; [exact Hin|].
  exact (summary_groups_nonempty _ _ _ _ _ _ _ H Hin).
Defined.

(** X6: widening the date range never loses a row: when
    start' <= start and end <= end', every row listed for
    [start, end] is also listed for [start', end'] from the same table. *)
Theorem list_range_monotone f orc orc' s e s' e' out out' :
  text_le s' s = true -> text_le e e' = true ->
  snd (run (list_expenses s e) f orc) = Ok out ->
  snd (run (list_expenses s' e') f orc') = Ok out' ->
  incl out out'.
Proof.
  intros Hs He H H'.
  destruct (run_list_expenses s e f orc) as [_ Hl].
  destruct (Hl out H) as (t & -> & ->).
  destruct (run_list_expenses s' e' (Some t) orc') as [_ Hl'].
  destruct (Hl' out' H') as (t' & Ht & ->). injection Ht as <-.
  intros r Hr. unfold list_result in *.
  apply (Permutation_in _ (Permutation_sym (order_by_perm _ _))).
  apply (Permutation_in _ (order_by_perm _ _)) in Hr.
  apply filter_In in Hr as [Hr Hb]. apply filter_In. split; [exact Hr|].
  unfold between in *. apply andb_true_iff in Hb as [Hb1 Hb2].
  apply andb_true_iff. split.
  - exact (text_le_trans _ _ _ Hs Hb1).
  - exact (text_le_trans _ _ _ Hb2 He).
Qed.

Lemma list_range_monotone_witness :
  text_le "2024-01-01" "2024-01-10" = true /\ text_le "2024-01-31" "2024-02-28" = true /\
  snd (run (list_expenses "2024-01-10" "2024-01-31") sample_file []) =
    Ok [mkExpense 1 "2024-01-15" (of_Z 4250) "Food" None None] /\
  snd (run (list_expenses "2024-01-01" "2024-02-28") sample_file []) =
    Ok [mkExpense 3 "2024-02-01" (of_Z 500) "Travel" None None;
        mkExpense 1 "2024-01-15" (of_Z 4250) "Food" None None;
        mkExpense 2 "2024-01-01" (of_Z 1000) "Food" None None] /\
  incl [mkExpense 1 "2024-01-15" (of_Z 4250) "Food" None None]
    [mkExpense 3 "2024-02-01" (of_Z 500) "Travel" None None;
     mkExpense 1 "2024-01-15" (of_Z 4250) "Food" None None;
     mkExpense 2 "2024-01-01" (of_Z 1000) "Food" None None].
Proof.
  assert (H1 : text_le "2024-01-01" "2024-01-10" = true) by reflexivity.
  assert (H2 : text_le "2024-01-31" "2024-02-28" = true) by reflexivity.
  assert (H3 : snd (run (list_expenses "2024-01-10" "2024-01-31") sample_file []) =
    Ok [mkExpense 1 "2024-01-15" (of_Z 4250) "Food" None None]) by (vm_compute; reflexivity).
  assert (H4 : snd (run (list_expenses "2024-01-01" "2024-02-28") sample_file []) =
    Ok [mkExpense 3 "2024-02-01" (of_Z 500) "Travel" None None;
        mkExpense 1 "2024-01-15" (of_Z 4250) "Food" None None;
        mkExpense 2 "2024-01-01" (of_Z 1000) "Food" None None]) by (vm_compute; reflexivity).
  repeat (split; [assumption|]).
  exact (list_range_monotone _ _ _ _ _ _ _ _ _ H1 H2 H3 H4).
Defined.

(** X7: an inverted range (end_date strictly before start_date in byte-wise
    order) selects no row: on working storage [list_expenses] and
    [summarize] return the empty sequence, whatever the table holds. *)
Theorem inverted_range_empty t s e :
  text_le s e = false ->
  run (list_expenses s e) (Some t) [] = (Some t, Ok []) /\
  (forall c, run (summarize s e c) (Some t) [] = (Some t, Ok [])).
Proof.
  intros Hinv.
  assert (Hno : forall r, between s e (date r) = false).
  { intros r. unfold between. destruct (text_le s (date r)) eqn:H1; [|reflexivity].
    destruct (text_le (date r) e) eqn:H2; [|reflexivity].
    rewrite (text_le_trans _ _ _ H1 H2) in Hinv. discriminate. }
  split.
  - rewrite run_list_expenses_ok. unfold list_result.
    now rewrite filter_none by (intros r _; apply Hno).
  - intros c. rewrite run_summarize_healthy. unfold summary_result.
    rewrite filter_none; [reflexivity|].
    intros r _. destruct (eval_where (summary_bs s e c) r) eqn:Hw; [|reflexivity].
    apply summary_bs_range in Hw. now rewrite Hno in Hw.
Qed.

Lemma inverted_range_empty_witness :
  text_le "2024-02-01" "2024-01-01" = false /\
  run (list_expenses "2024-02-01" "2024-01-01")
      (Some (mkTable expenses_columns [mkExpense 1 "2024-01-15" (of_Z 4250) "Food" None None] 1)) [] =
    (Some (mkTable expenses_columns [mkExpense 1 "2024-01-15" (of_Z 4250) "Food" None None] 1), Ok []) /\
  (forall c, run (summarize "2024-02-01" "2024-01-01" c)
      (Some (mkTable expenses_columns [mkExpense 1 "2024-01-15" (of_Z 4250) "Food" None None] 1)) [] =
    (Some (mkTable expenses_columns [mkExpense 1 "2024-01-15" (of_Z 4250) "Food" None None] 1), Ok [])).
Proof.
  assert (H : text_le "2024-02-01" "2024-01-01" = false) by reflexivity.
  split; [exact H|]. exact (inverted_range_empty _ _ _ H).
Defined.

(** X8: a successful insert dated outside a range does not change what
    [list_expenses] returns for that range. *)
Theorem insert_outside_range_invisible f orc d a c sc n res f' s e :
  run (add_expense d a c sc n) f orc = (f', Ok res) ->
  between s e d = false ->
  run (list_expenses s e) f' [] = (f', snd (run (list_expenses s e) f [])).
Proof.
  intros Hrun Hout.
  pose proof (run_add_expense f orc d a c sc n) as H. rewrite Hrun in H.
  destruct H as (t & -> & _ & _ & _ & ->).
  rewrite !run_list_expenses_ok. simpl. unfold list_result, inserted; simpl.
  rewrite filter_app. simpl. rewrite Hout, app_nil_r. reflexivity.
Qed.

Lemma insert_outside_range_invisible_witness :
  run (add_expense "2024-03-05" (of_Z 900) "Bills" None None) sample_file [] =
    (fst (run (add_expense "2024-03-05" (of_Z 900) "Bills" None None) sample_file []),
     Ok (mkAddResult "success" 4)) /\
  between "2024-01-01" "2024-01-31" "2024-03-05" = false /\
  run (list_expenses "2024-01-01" "2024-01-31")
      (fst (run (add_expense "2024-03-05" (of_Z 900) "Bills" None None) sample_file [])) [] =
    (fst (run (add_expense "2024-03-05" (of_Z 900) "Bills" None None) sample_file []),
     snd (run (list_expenses "2024-01-01" "2024-01-31") sample_file [])).
Proof.
  assert (H1 : run (add_expense "2024-03-05" (of_Z 900) "Bills" None None) sample_file [] =
    (fst (run (add_expense "2024-03-05" (of_Z 900) "Bills" None None) sample_file []),
     Ok (mkAddResult "success" 4))) by (vm_compute; reflexivity).
  assert (H2 : between "2024-01-01" "2024-01-31" "2024-03-05" = false) by reflexivity.
  split; [exact H1|]. split; [exact H2|].
  exact (insert_outside_range_invisible _ _ _ _ _ _ _ _ _ _ _ H1 H2).
Defined.



(** X10: on working storage, once the table exists, [list_expenses] and
    [summarize] never raise: in particular the query built by [summarize]
    always supplies one parameter per placeholder, with or without
    category. *)
Theorem reads_never_fail t s e cat :
  (exists out, run (list_expenses s e) (Some t) [] = (Some t, Ok out)) /\
  (exists out, run (summarize s e cat) (Some t) [] = (Some t, Ok out)).
Proof.
  split.
  - rewrite run_list_expenses_ok. eexists; reflexivity.
  - unfold run, summarize.
    pose proof (summary_query_binds s e cat) as Hb.
    destruct (summary_query s e cat) as [ps params]; simpl in Hb.
    unfold with_connection, connect, bind, fetchall,
      storage_call, storage_ok, close, sql_select_summary; simpl.
    rewrite Hb. eexists; reflexivity.
Qed.

Lemma filter_idem {A} (p : A -> bool) l : filter p (filter p l) = filter p l.
Proof.
  induction l as [|x l IH]; simpl; [reflexivity|].
  destruct (p x) eqn:Hp; simpl; rewrite ?Hp, IH; reflexivity.
Qed.

(** X11: narrowing [summarize] to a non-empty category returns a sub-list of
    the unfiltered summary: every entry of the filtered result is, field for
    field, the entry of that category in [summarize] without category over
    the same range. *)
Theorem filtered_summary_in_unfiltered t s e c outc out x :
  c <> EmptyString ->
  run (summarize s e (Some c)) (Some t) [] = (Some t, Ok outc) ->
  run (summarize s e None) (Some t) [] = (Some t, Ok out) ->
  In x outc -> s_category x = c /\ In x out.
Proof.
  intros Hc Hrc Hr Hx.
  rewrite run_summarize_healthy in Hrc, Hr.
  injection Hrc as <-. injection Hr as <-.
  unfold summary_result, summary_bs, py_truthy in *.
  rewrite (proj2 (String.eqb_neq c EmptyString) Hc) in Hx. simpl in Hx.
  rewrite filter_where_category in Hx.
  rewrite (filter_ext _ _ (eval_where_between s e)).
  set (ms := filter (fun r => between s e (date r)) (t_rows t)) in *.
  fold (cat_rows c ms) in Hx.
  apply (Permutation_in _ (order_by_perm total_ge _)) in Hx.
  destruct (summary_list_inv (cat_rows c ms)) as (_ & Hcats_c & Htot_c).
  destruct (proj1 (Hcats_c (s_category x)) (in_map _ _ _ Hx)) as (r & Hr & Hrc).
  assert (Hxc : s_category x = c).
  { unfold cat_rows in Hr. apply filter_In in Hr as [_ Hr].
    apply String.eqb_eq in Hr. congruence. }
  split; [exact Hxc|].
  destruct (summary_list_inv ms) as (_ & Hcats & Htot).
  assert (Hrms : In r ms) by (unfold cat_rows in Hr; apply filter_In in Hr; tauto).
  pose proof (proj2 (Hcats c) (ex_intro _ r (conj Hrms (eq_trans Hrc Hxc)))) as Hcin.
  apply in_map_iff in Hcin as (y & Hyc & Hy).
  destruct (Htot_c x Hx) as [Htx Hcx]. destruct (Htot y Hy) as [Hty Hcy].
  assert (Hidem : cat_rows c (cat_rows c ms) = cat_rows c ms) by apply filter_idem.
  rewrite Hxc, Hidem in Htx, Hcx. rewrite Hyc in Hty, Hcy.
  assert (Hxy : x = y).
  { destruct x as [xc xt xn], y as [yc yt yn]; simpl in *. congruence. }
  rewrite Hxy. apply (Permutation_in _ (Permutation_sym (order_by_perm total_ge _))). exact Hy.
Qed.

Lemma filtered_summary_in_unfiltered_witness :
  "Travel"%string <> EmptyString /\
  run (summarize "2024-01-01" "2024-02-28" (Some "Travel"%string)) sample_file [] =
    (sample_file, Ok [mkSummary "Travel" (Some (of_Z 500)) 1]) /\
  run (summarize "2024-01-01" "2024-02-28" None) sample_file [] =
    (sample_file, Ok [mkSummary "Food" (Some (of_Z 5250)) 2; mkSummary "Travel" (Some (of_Z 500)) 1]) /\
  In (mkSummary "Travel" (Some (of_Z 500)) 1) [mkSummary "Travel" (Some (of_Z 500)) 1] /\
  s_category (mkSummary "Travel" (Some (of_Z 500)) 1) = "Travel"%string /\
  In (mkSummary "Travel" (Some (of_Z 500)) 1) [mkSummary "Food" (Some (of_Z 5250)) 2; mkSummary "Travel" (Some (of_Z 500)) 1].
Proof.
  assert (H0 : "Travel"%string <> EmptyString) by discriminate.
  assert (H1 : run (summarize "2024-01-01" "2024-02-28" (Some "Travel"%string)) sample_file [] =
    (sample_file, Ok [mkSummary "Travel" (Some (of_Z 500)) 1])) by (vm_compute; reflexivity).
  assert (H2 : run (summarize "2024-01-01" "2024-02-28" None) sample_file [] =
    (sample_file, Ok [mkSummary "Food" (Some (of_Z 5250)) 2; mkSummary "Travel" (Some (of_Z 500)) 1]))
    by (vm_compute; reflexivity).
  assert (H3 : In (mkSummary "Travel" (Some (of_Z 500)) 1) [mkSummary "Travel" (Some (of_Z 500)) 1]) by (simpl; auto).
  split; [exact H0|]. split; [exact H1|]. split; [exact H2|]. split; [exact H3|].
  exact (filtered_summary_in_unfiltered
           (match sample_file with Some t => t | None => mkTable [] [] 0 end)
           _ _ _ _ _ _ H0 H1 H2 H3).
Defined.

(** X12: [summarize] and [list_expenses] agree on the rows: over the same
    range and table, each summary entry's count is the number of listed rows
    of that category. *)
Theorem summary_agrees_with_list f orc orc' s e sout lout x :
  snd (run (summarize s e None) f orc) = Ok sout ->
  snd (run (list_expenses s e) f orc') = Ok lout ->
  In x sout ->
  count x = Z.of_nat (List.length (cat_rows (s_category x) lout)).
Proof.
  intros Hs Hl Hx.
  destruct (run_summarize_full s e None f orc) as [_ Hs'].
  destruct (Hs' sout Hs) as (t & -> & ->).
  destruct (run_list_expenses s e (Some t) orc') as [_ Hl'].
  destruct (Hl' lout Hl) as (t' & Ht & ->). injection Ht as <-.
  unfold summary_result, summary_bs, list_result in *.
  rewrite (filter_ext _ _ (eval_where_between s e)) in Hx.
  set (ms := filter (fun r => between s e (date r)) (t_rows t)) in *.
  apply (Permutation_in _ (order_by_perm total_ge _)) in Hx.
  destruct (summary_list_inv ms) as (_ & _ & Htot).
  destruct (Htot x Hx) as [_ Hc].
  pose proof (Permutation_filter_compat (fun r => String.eqb (category r) (s_category x))
                _ _ (order_by_perm date_ge ms)) as Hp.
  fold (cat_rows (s_category x) (order_by date_ge ms)) in Hp.
  fold (cat_rows (s_category x) ms) in Hp.
  rewrite Hc. f_equal. symmetry. apply Permutation_length, Hp.
Qed.

Lemma summary_agrees_with_list_witness :
  snd (run (summarize "2024-01-01" "2024-02-28" None) sample_file []) =
    Ok [mkSummary "Food" (Some (of_Z 5250)) 2; mkSummary "Travel" (Some (of_Z 500)) 1] /\
  snd (run (list_expenses "2024-01-01" "2024-02-28") sample_file []) =
    Ok [mkExpense 3 "2024-02-01" (of_Z 500) "Travel" None None;
        mkExpense 1 "2024-01-15" (of_Z 4250) "Food" None None;
        mkExpense 2 "2024-01-01" (of_Z 1000) "Food" None None] /\
  In (mkSummary "Food" (Some (of_Z 5250)) 2)
    [mkSummary "Food" (Some (of_Z 5250)) 2; mkSummary "Travel" (Some (of_Z 500)) 1] /\
  count (mkSummary "Food" (Some (of_Z 5250)) 2) =
    Z.of_nat (List.length (cat_rows "Food"
      [mkExpense 3 "2024-02-01" (of_Z 500) "Travel" None None;
       mkExpense 1 "2024-01-15" (of_Z 4250) "Food" None None;
       mkExpense 2 "2024-01-01" (of_Z 1000) "Food" None None])).
Proof.
  assert (H1 : snd (run (summarize "2024-01-01" "2024-02-28" None) sample_file []) =
    Ok [mkSummary "Food" (Some (of_Z 5250)) 2; mkSummary "Travel" (Some (of_Z 500)) 1])
    by (vm_compute; reflexivity).
  assert (H2 : snd (run (list_expenses "2024-01-01" "2024-02-28") sample_file []) =
    Ok [mkExpense 3 "2024-02-01" (of_Z 500) "Travel" None None;
        mkExpense 1 "2024-01-15" (of_Z 4250) "Food" None None;
        mkExpense 2 "2024-01-01" (of_Z 1000) "Food" None None]) by (vm_compute; reflexivity).
  assert (H3 : In (mkSummary "Food" (Some (of_Z 5250)) 2)
                 [mkSummary "Food" (Some (of_Z 5250)) 2; mkSummary "Travel" (Some (of_Z 500)) 1])
    by (simpl; auto).
  split; [exact H1|]. split; [exact H2|]. split; [exact H3|].
  exact (summary_agrees_with_list _ _ _ _ _ _ _ _ H1 H2 H3).
Defined.
